(** * IV fluid and electrolyte calculator: a shallow embedding of
    [iv_fluid_app.py] and the properties of its calculation block.

    The script is a Streamlit page: the sidebar widgets bind module-level
    globals, and the block under the "Generate Plan" button computes the
    plan from them.  The embedding keeps the helper functions, the global
    bindings (as a record that the block and [calculate_electrolyte_deficits]
    read), the calculation block up to the intake projection, and the order
    string over any rendering of the rate.  Number formatting and widget
    rendering are left out.

    Numbers.  The source computes with Python floats and ints.  The
    calculator is written once over an interface [PyNum] of the operations it
    uses, and instantiated twice: at [Q], exact rational arithmetic, where the
    laws over all inputs are proved, and at the kernel's binary64 floats,
    where the concrete runs are evaluated with the roundings Python makes.
    The laws proved at [Q] are kept to those binary64 leaves intact:
    identities that follow the source operation by operation, orders and
    signs.  None needs distributivity, exact scaling near overflow, or a
    positive product at an underflowing weight. *)

From Stdlib Require Import ZArith QArith Qminmax Lqa Lia Bool String Ascii List.
From Stdlib Require Import Floats.PrimFloat Numbers.Cyclic.Int63.Uint63.
Import ListNotations.

Set Implicit Arguments.

(** ** Python strings *)

Module PyStr.

(** [sub in s] on Python strings: [sub] occurs in [s] as a substring. *)
Fixpoint str_in (sub s : string) : bool :=
  String.prefix sub s ||
  match s with
  | EmptyString => false
  | String _ s' => str_in sub s'
  end.

(** [key in keys] on a Python list of strings. *)
Definition list_in (key : string) (keys : list string) : bool :=
  existsb (String.eqb key) keys.

End PyStr.
Import PyStr.

(** ** Exceptions *)

(** The subscript [fluid_composition[fluid]] is the operation of the block
    whose raising is modelled.  One more can raise in the source: the product
    [rate_h * npo_hours] converts the int to a float and raises OverflowError
    for an int beyond the double range.  [of_int] below is total, so the
    statements that speak of raising keep the NPO hours within
    [converts_to_float]. *)
Inductive exn : Type :=
| KeyError (key : string).

Inductive result (A : Type) : Type :=
| Ok (a : A)
| Raise (e : exn).
Arguments Ok {A} a.
Arguments Raise {A} e.

Definition bind {A B} (r : result A) (k : A -> result B) : result B :=
  match r with
  | Ok a => k a
  | Raise e => Raise e
  end.

Declare Scope py_scope.
Delimit Scope py_scope with py.
Notation "x <- r ;; k" := (bind r (fun x => k))
  (at level 61, r at next level, right associativity) : py_scope.

(** A Python dict literal with string keys, in insertion order. *)
Definition dict (V : Type) := list (string * V).

Fixpoint getitem {V} (d : dict V) (key : string) : result V :=
  match d with
  | [] => Raise (KeyError key)
  | (k, v) :: d' => if String.eqb k key then Ok v else getitem d' key
  end.

(** ** Numbers *)

Class PyNum (F : Type) : Type := {
  of_int : Z -> F;          (* a Python int, promoted where a float meets it *)
  of_lit : Q -> F;          (* a decimal float literal *)
  add : F -> F -> F;
  sub : F -> F -> F;
  mul : F -> F -> F;
  div : F -> F -> F;
  lt  : F -> F -> bool
}.

Notation "x + y" := (add x y) : py_scope.
Notation "x - y" := (sub x y) : py_scope.
Notation "x * y" := (mul x y) : py_scope.
Notation "x / y" := (div x y) : py_scope.
Notation "x <? y" := (lt x y) : py_scope.
Notation "x >? y" := (lt y x) : py_scope.

Definition Qltb (a b : Q) : bool := negb (Qle_bool b a).

#[export] Instance PyNum_Q : PyNum Q := {
  of_int := inject_Z;
  of_lit := fun q => q;
  add := Qplus;
  sub := Qminus;
  mul := Qmult;
  div := Qdiv;
  lt := Qltb
}.

(** binary64: an int is converted exactly (below 2^63), a decimal literal
    [n/10^k] is the correctly rounded quotient of two exact integers, which is
    the double nearest to the literal. *)
Definition float_of_Z (z : Z) : float :=
  match z with
  | Z0 => PrimFloat.zero
  | Zpos _ => PrimFloat.of_uint63 (Uint63.of_Z z)
  | Zneg p => PrimFloat.opp (PrimFloat.of_uint63 (Uint63.of_Z (Zpos p)))
  end.

#[export] Instance PyNum_float : PyNum float := {
  of_int := float_of_Z;
  of_lit := fun q => PrimFloat.div (float_of_Z (Qnum q)) (float_of_Z (Zpos (Qden q)));
  add := PrimFloat.add;
  sub := PrimFloat.sub;
  mul := PrimFloat.mul;
  div := PrimFloat.div;
  lt := PrimFloat.ltb
}.

(** ** The script *)

Section Script.

Context {F : Type} `{PyNum F}.
Local Open Scope string_scope.
Local Open Scope py_scope.

(** The builtins [min(a, b)] and [max(a, b)]: the first argument is kept
    unless the second is strictly smaller (resp. greater). *)
Definition py_min (a b : F) : F := if b <? a then b else a.
Definition py_max (a b : F) : F := if b >? a then b else a.

Definition estimate_tbw (weight : F) (gender : string) (obese malnourished : bool) : F :=
  let base_fraction := if String.eqb gender "Male" then of_lit 0.6 else of_lit 0.5 in
  let tbw := base_fraction * weight in
  let tbw := if obese then tbw * of_lit 0.85 else tbw in
  let tbw := if malnourished then tbw * of_lit 1.10 else tbw in
  tbw.

Definition calculate_maintenance (weight : F) : F * F :=
  let m1 := py_min weight (of_int 10) * of_int 4 in
  let m2 := py_min (py_max (weight - of_int 10) (of_int 0)) (of_int 10) * of_int 2 in
  let m3 := py_max (weight - of_int 20) (of_int 0) * of_int 1 in
  let rate_h := m1 + m2 + m3 in
  (rate_h, rate_h * of_int 24).

Definition calculate_deficit (rate_h npo_hours : F) : F :=
  rate_h * npo_hours.

(** Fluid compositions per liter. *)
Definition fluid_composition : dict (dict Z) :=
  [ ("Lactated Ringer's", [("Na", 130); ("K", 4); ("Cl", 109); ("HCO3_pre", 28)]);
    ("0.9% NaCl", [("Na", 154); ("Cl", 154)]);
    ("D5NS", [("Na", 154); ("Cl", 154); ("Glucose_g", 50)]);
    ("D5LR", [("Na", 130); ("K", 4); ("Cl", 109); ("HCO3_pre", 28); ("Glucose_g", 50)]) ]%string%Z.

(** The module-level globals bound by the sidebar widgets.  [age] and
    [npo_hours] come from integer inputs, the other numbers from float
    inputs. *)
Record Globals : Type := {
  age : Z;
  gender : string;
  weight : F;
  obese : bool;
  malnourished : bool;
  npo_hours : Z;
  serum_na : F;
  serum_k : F;
  serum_hco3 : F;
  blood_glucose : F;
  chf : bool;
  pediatric : bool;
  insulin_infusion : bool;
  long_npo : bool
}.

(** [weight] is not a parameter of this function: the body reads the
    module-level global. *)
Definition calculate_electrolyte_deficits (g : Globals) (tbw na k hco3 : F) : F * F * F :=
  let na_def := py_max (of_int 0) (tbw * (of_int 140 - na)) in
  let k_def := py_max (of_int 0) (of_lit 0.4 * weight g * (of_lit 4.0 - k)) in
  let hco3_def := py_max (of_int 0) (of_lit 0.3 * weight g * (of_int 24 - hco3)) in
  (na_def, k_def, hco3_def).

(** What the calculation block has bound when it is done. *)
Record Plan : Type := {
  tbw : F;
  rate_h : F;
  maint_24 : F;
  deficit : F;
  total_24 : F;
  na_def : F;
  k_def : F;
  hco3_def : F;
  fluid : string;
  k_supplement : string;
  intake : dict F;
  order_suffix : string
}.

(** Determine fluid type (the [if pediatric: ... else: ...] statement). *)
Definition select_fluid (g : Globals) (deficit : F) : string :=
  if pediatric g then
    if long_npo g then "D5LR" else "D5NS"
  else
    let fluid :=
      if (serum_na g <? of_int 130) || (deficit >? of_int 0)
      then "0.9% NaCl" else "Lactated Ringer's" in
    if (long_npo g || insulin_infusion g || malnourished g) && negb (str_in "D5" fluid)
    then (if str_in "LR" fluid then "D5LR" else "D5NS")
    else fluid.

(** Maintenance electrolyte intake from the chosen fluid. *)
Definition maintenance_intake (comp : dict Z) (maint_24 : F) : dict F :=
  map (fun kv => (fst kv, of_int (snd kv) * (maint_24 / of_int 1000)))
      (filter (fun kv => list_in (fst kv) ["Na"; "K"; "Cl"; "HCO3_pre"; "Glucose_g"]%string)
              comp).

(** What the order string gets appended after its formatted head. *)
Definition order_suffix_of (fluid k_supplement : string) : string :=
  ((if str_in "D5" fluid then " (contains dextrose)" else "") ++
   (if str_in "KCl" k_supplement then "; add 20 mEq KCl per L" else ""))%string.

(** The block run when "Generate Plan" is pressed. *)
Definition generate_plan (g : Globals) : result Plan :=
  let tbw := estimate_tbw (weight g) (gender g) (obese g) (malnourished g) in
  let '(rate_h, maint_24) := calculate_maintenance (weight g) in
  let '(rate_h, maint_24) :=
    if chf g then
      let rate_h := rate_h * of_lit 0.5 in
      (rate_h, rate_h * of_int 24)
    else (rate_h, maint_24) in
  let deficit := calculate_deficit rate_h (of_int (npo_hours g)) in
  let total_24 := maint_24 + deficit in
  let '(na_def, k_def, hco3_def) :=
    calculate_electrolyte_deficits g tbw (serum_na g) (serum_k g) (serum_hco3 g) in
  let fluid := select_fluid g deficit in
  let k_supplement :=
    if serum_k g <? of_lit 3.5 then "Add KCl 20 mEq per L" else "No extra KCl" in
  comp <- getitem fluid_composition fluid ;;
  let intake := maintenance_intake comp maint_24 in
  Ok {| tbw := tbw; rate_h := rate_h; maint_24 := maint_24; deficit := deficit;
        total_24 := total_24; na_def := na_def; k_def := k_def; hco3_def := hco3_def;
        fluid := fluid; k_supplement := k_supplement; intake := intake;
        order_suffix := order_suffix_of fluid k_supplement |}.

End Script.

Arguments Globals F : clear implicits.
Arguments Plan F : clear implicits.

(** ** Inputs used below *)

Section Inputs.

Context {F : Type} `{PyNum F}.
Local Open Scope string_scope.

(** The values the sidebar widgets start with. *)
Definition sidebar_defaults : Globals F :=
  {| age := 25; gender := "Male"; weight := of_lit 110.0; obese := false;
     malnourished := false; npo_hours := 12; serum_na := of_lit 130.0;
     serum_k := of_lit 5.0; serum_hco3 := of_lit 22.0; blood_glucose := of_lit 100.0;
     chf := false; pediatric := false; insulin_infusion := false; long_npo := false |}.

Definition with_weight (w : F) (g : Globals F) : Globals F :=
  {| age := age g; gender := gender g; weight := w; obese := obese g;
     malnourished := malnourished g; npo_hours := npo_hours g; serum_na := serum_na g;
     serum_k := serum_k g; serum_hco3 := serum_hco3 g; blood_glucose := blood_glucose g;
     chf := chf g; pediatric := pediatric g; insulin_infusion := insulin_infusion g;
     long_npo := long_npo g |}.

Definition with_serum_k (k : F) (g : Globals F) : Globals F :=
  {| age := age g; gender := gender g; weight := weight g; obese := obese g;
     malnourished := malnourished g; npo_hours := npo_hours g; serum_na := serum_na g;
     serum_k := k; serum_hco3 := serum_hco3 g; blood_glucose := blood_glucose g;
     chf := chf g; pediatric := pediatric g; insulin_infusion := insulin_infusion g;
     long_npo := long_npo g |}.

Definition with_npo_hours (n : Z) (g : Globals F) : Globals F :=
  {| age := age g; gender := gender g; weight := weight g; obese := obese g;
     malnourished := malnourished g; npo_hours := n; serum_na := serum_na g;
     serum_k := serum_k g; serum_hco3 := serum_hco3 g; blood_glucose := blood_glucose g;
     chf := chf g; pediatric := pediatric g; insulin_infusion := insulin_infusion g;
     long_npo := long_npo g |}.

(** An adult on insulin, normal sodium, not fasting. *)
Definition adult_on_insulin : Globals F :=
  {| age := 25; gender := "Male"; weight := of_lit 110.0; obese := false;
     malnourished := false; npo_hours := 0; serum_na := of_lit 135.0;
     serum_k := of_lit 5.0; serum_hco3 := of_lit 22.0; blood_glucose := of_lit 100.0;
     chf := false; pediatric := false; insulin_infusion := true; long_npo := false |}.

(** An adult with low sodium and no flag set, not fasting. *)
Definition adult_low_sodium : Globals F :=
  {| age := 25; gender := "Male"; weight := of_lit 110.0; obese := false;
     malnourished := false; npo_hours := 0; serum_na := of_lit 125.0;
     serum_k := of_lit 5.0; serum_hco3 := of_lit 22.0; blood_glucose := of_lit 100.0;
     chf := false; pediatric := false; insulin_infusion := false; long_npo := false |}.

(** A child, fasting for long or not. *)
Definition child (long : bool) : Globals F :=
  {| age := 6; gender := "Female"; weight := of_lit 22.0; obese := false;
     malnourished := false; npo_hours := 12; serum_na := of_lit 138.0;
     serum_k := of_lit 4.0; serum_hco3 := of_lit 24.0; blood_glucose := of_lit 100.0;
     chf := true; pediatric := true; insulin_infusion := false; long_npo := long |}.

End Inputs.

Section MoreInputs.

Context {F : Type} `{PyNum F}.

Definition with_chf (c : bool) (g : Globals F) : Globals F :=
  {| age := age g; gender := gender g; weight := weight g; obese := obese g;
     malnourished := malnourished g; npo_hours := npo_hours g; serum_na := serum_na g;
     serum_k := serum_k g; serum_hco3 := serum_hco3 g; blood_glucose := blood_glucose g;
     chf := c; pediatric := pediatric g; insulin_infusion := insulin_infusion g;
     long_npo := long_npo g |}.

End MoreInputs.

(** ** The order string *)

Section Order.

Context {F : Type} `{PyNum F}.
Local Open Scope string_scope.

(** The format [f"{x:.0f}"] is not modelled: the order is taken over any
    rendering of the rate. *)
Variable format_0f : F -> string.

(** Recommended IV fluid order (the [order = ...] statement and the two
    [order += ...] after it). *)
Definition order_text (fluid : string) (rate_h : F) (k_supplement : string) : string :=
  let order := fluid ++ " infusion at " ++ format_0f rate_h ++ " mL/hr for 24h via pump" in
  let order := if str_in "D5" fluid then order ++ " (contains dextrose)" else order in
  let order := if str_in "KCl" k_supplement then order ++ "; add 20 mEq KCl per L" else order in
  order.

End Order.

(** [d.keys()], in insertion order. *)
Definition keys {V} (d : dict V) : list string := map fst d.

(** The keys the intake loop lets through. *)
Definition intake_keys : list string :=
  ["Na"; "K"; "Cl"; "HCO3_pre"; "Glucose_g"]%string.

Definition raises {A} (r : result A) : bool :=
  match r with
  | Ok _ => false
  | Raise _ => true
  end.

(** ** Vocabulary of the statements *)

Section Vocabulary.

Context {F : Type} `{PyNum F}.
Local Open Scope string_scope.
Local Open Scope py_scope.

(** The unrestricted hourly rate and the rate after the CHF adjustment. *)
Definition rate_of (g : Globals F) : F :=
  let r := fst (calculate_maintenance (weight g)) in
  if chf g then r * of_lit 0.5 else r.

(** What the sidebar lets through: [number_input] keeps a value at or above
    its [min_value] (0 for age, weight and NPO hours; the labs have none), and
    the gender [selectbox] offers two strings. *)
Definition sidebar_accepts (g : Globals F) : bool :=
  (0 <=? age g)%Z && negb (weight g <? of_int 0) && (0 <=? npo_hours g)%Z &&
  (String.eqb (gender g) "Male" || String.eqb (gender g) "Female").

(** An int that [float * int] converts without OverflowError: any int below
    2^1023 in absolute value is within the double range. *)
Definition converts_to_float (n : Z) : bool := (Z.abs n <? 2 ^ 1023)%Z.

End Vocabulary.

Section VocabularyQ.

Local Open Scope string_scope.
Local Open Scope Q_scope.

(** The TBW contract in the spec's words: base fraction times weight, then
    the obesity factor, then the malnutrition factor. *)
Definition tbw_contract (w : Q) (gender : string) (obese malnourished : bool) : Q :=
  let base_fraction := if String.eqb gender "Male" then 0.6 else 0.5 in
  base_fraction * w * (if obese then 0.85 else 1) * (if malnourished then 1.10 else 1).

(** The inputs the spec calls invalid (a rational is always finite). *)
Definition invalid_input (g : Globals Q) : Prop :=
  weight g <= 0 \/ (age g < 0)%Z \/ (npo_hours g < 0)%Z.

End VocabularyQ.

(** * Properties *)

(** ** The calculation block, field by field *)

Section Block.

Context {F : Type} `{PyNum F}.
Local Open Scope string_scope.
Local Open Scope py_scope.

Lemma select_fluid_cases (g : Globals F) (d : F) :
  select_fluid g d = "D5LR" \/ select_fluid g d = "D5NS" \/
  select_fluid g d = "0.9% NaCl" \/ select_fluid g d = "Lactated Ringer's".
Proof.
  unfold select_fluid.
  destruct (pediatric g); [destruct (long_npo g); auto|].
  destruct ((serum_na g <? of_int 130) || (d >? of_int 0));
    destruct (long_npo g || insulin_infusion g || malnourished g); cbn; auto.
Qed.

Lemma getitem_selected (g : Globals F) (d : F) :
  exists comp, getitem fluid_composition (select_fluid g d) = Ok comp.
Proof.
  destruct (select_fluid_cases g d) as [E|[E|[E|E]]]; rewrite E;
    eexists; reflexivity.
Qed.

Lemma generate_plan_fields (g : Globals F) :
  exists p, generate_plan g = Ok p /\
    tbw p = estimate_tbw (weight g) (gender g) (obese g) (malnourished g) /\
    rate_h p = rate_of g /\
    maint_24 p = rate_h p * of_int 24 /\
    deficit p = calculate_deficit (rate_h p) (of_int (npo_hours g)) /\
    total_24 p = maint_24 p + deficit p /\
    (na_def p, k_def p, hco3_def p) =
      calculate_electrolyte_deficits g (tbw p) (serum_na g) (serum_k g) (serum_hco3 g) /\
    fluid p = select_fluid g (deficit p) /\
    k_supplement p =
      (if serum_k g <? of_lit 3.5 then "Add KCl 20 mEq per L" else "No extra KCl") /\
    order_suffix p = order_suffix_of (fluid p) (k_supplement p).
Proof.
  unfold generate_plan, rate_of, calculate_maintenance, calculate_electrolyte_deficits.
  cbn [fst snd].
  destruct (chf g).
  all: match goal with
       | |- context [getitem fluid_composition (select_fluid ?g0 ?d)] =>
           destruct (getitem_selected g0 d) as [comp ->]
       end.
  all: cbn [bind]; eexists; split; [reflexivity|]; cbn; repeat split; reflexivity.
Qed.

(** The adult branch as the code runs it: the escalation test ["LR" in fluid]
    fails on "Lactated Ringer's", so every escalation ends in "D5NS". *)
Lemma select_fluid_adult (g : Globals F) (d : F) :
  pediatric g = false ->
  select_fluid g d =
    if long_npo g || insulin_infusion g || malnourished g then "D5NS"
    else if lt (serum_na g) (of_int 130) || lt (of_int 0) d then "0.9% NaCl"
    else "Lactated Ringer's".
Proof.
  intro Hped. unfold select_fluid. rewrite Hped.
  destruct (lt (serum_na g) (of_int 130) || lt (of_int 0) d);
    destruct (long_npo g || insulin_infusion g || malnourished g); reflexivity.
Qed.

End Block.

(** ** Exact arithmetic *)

Section Rational.

Local Open Scope Q_scope.

Lemma Qltb_reflect (a b : Q) : reflect (a < b) (Qltb a b).
Proof.
  unfold Qltb. destruct (Qlt_le_dec a b) as [L|L].
  - destruct (Qle_bool b a) eqn:E; cbn; constructor; [|exact L].
    apply Qle_bool_iff in E. lra.
  - apply Qle_bool_iff in L as E. rewrite E. cbn. constructor. lra.
Qed.

End Rational.

(** Unfolds the interface at [Q] and splits on every comparison. *)
Ltac q_lit z := change (inject_Z z) with (z # 1) in *.
Ltac q_ops :=
  cbn [of_int of_lit add sub mul div lt PyNum_Q] in *;
  q_lit 0%Z; q_lit 1%Z; q_lit 2%Z; q_lit 4%Z; q_lit 10%Z; q_lit 20%Z; q_lit 24%Z;
  q_lit 130%Z; q_lit 140%Z; q_lit 1000%Z.
Ltac q_split :=
  repeat match goal with
         | |- context [Qltb ?a ?b] => destruct (Qltb_reflect a b)
         | H : context [Qltb ?a ?b] |- _ => destruct (Qltb_reflect a b)
         end.
Ltac q_solve := q_ops; unfold py_min, py_max in *; q_ops; q_split; cbn [fst snd]; try lra.

Section RationalLaws.

Local Open Scope Q_scope.

Lemma py_max_Qmax (a b : Q) : py_max a b == Qmax a b.
Proof.
  unfold py_max. q_ops. q_split.
  - symmetry. apply Q.max_r. lra.
  - symmetry. apply Q.max_l. lra.
Qed.

Lemma py_min_Qmin (a b : Q) : py_min a b == Qmin a b.
Proof.
  unfold py_min. q_ops. q_split.
  - symmetry. apply Q.min_r. lra.
  - symmetry. apply Q.min_l. lra.
Qed.

Lemma Qltb_true (a b : Q) : a < b -> Qltb a b = true.
Proof. intro L. destruct (Qltb_reflect a b); [reflexivity | contradiction]. Qed.

Lemma inject_Z_pos (n : Z) : (0 < n)%Z -> 0 < inject_Z n.
Proof. intro L. change 0 with (inject_Z 0). rewrite <- Zlt_Qlt. exact L. Qed.

(** The unrestricted rate is positive on positive weights. *)
Lemma maintenance_rate_pos (w : Q) : 0 < w -> 0 < fst (calculate_maintenance w).
Proof. intro L. unfold calculate_maintenance. q_solve. Qed.

Lemma estimate_tbw_nonneg (w : Q) (gender : string) (obese malnourished : bool) :
  0 <= w -> 0 <= estimate_tbw w gender obese malnourished.
Proof.
  intro L. unfold estimate_tbw. q_ops.
  destruct (String.eqb gender "Male"), obese, malnourished; lra.
Qed.

End RationalLaws.

(** ** The claims *)

Section Claims.

Local Open Scope string_scope.
Local Open Scope Q_scope.

(** C1. At weight 110 kg, Male, not obese, not malnourished, 12 NPO hours,
    Na 130, K 5, HCO3 22 and no flag set (the sidebar's starting values), the
    block binds TBW 66.0, rate 150, 24h maintenance 3600, deficit 1800, total
    5400, sodium deficit 660, potassium deficit 0, base deficit 66, fluid
    "0.9% NaCl" and no potassium supplement; in exact arithmetic and in
    binary64 alike. *)
Theorem default_plan :
  (exists p : Plan Q, generate_plan sidebar_defaults = Ok p /\
     tbw p == 66 /\ rate_h p == 150 /\ maint_24 p == 3600 /\ deficit p == 1800 /\
     total_24 p == 5400 /\ na_def p == 660 /\ k_def p == 0 /\ hco3_def p == 66 /\
     0 < deficit p /\ fluid p = "0.9% NaCl" /\ k_supplement p = "No extra KCl") /\
  (exists p : Plan float, generate_plan sidebar_defaults = Ok p /\
     tbw p = 66%float /\ rate_h p = 150%float /\ maint_24 p = 3600%float /\
     deficit p = 1800%float /\ total_24 p = 5400%float /\ na_def p = 660%float /\
     k_def p = 0%float /\ hco3_def p = 66%float /\
     fluid p = "0.9% NaCl" /\ k_supplement p = "No extra KCl").
Proof.
  split; eexists; (split; [vm_compute; reflexivity|]);
    cbn [tbw rate_h maint_24 deficit total_24 na_def k_def hco3_def fluid k_supplement];
    repeat split; vm_compute; reflexivity.
Qed.

(** C2. For every weight w > 0 the maintenance calculator's hourly rate is
    4w when w <= 10, 40 + 2(w - 10) when 10 < w <= 20 and 40 + 20 + (w - 20)
    when w > 20, and its second component is the rate times 24. *)
Theorem maintenance_4_2_1 (w : Q) :
  0 < w ->
  (w <= 10 -> fst (calculate_maintenance w) == 4 * w) /\
  (10 < w -> w <= 20 -> fst (calculate_maintenance w) == 40 + 2 * (w - 10)) /\
  (20 < w -> fst (calculate_maintenance w) == 40 + 20 + (w - 20)) /\
  snd (calculate_maintenance w) == fst (calculate_maintenance w) * 24.
Proof.
  intro Hw. unfold calculate_maintenance. cbn [fst snd].
  repeat split; intros; q_solve.
Qed.

(** The 4-2-1 law at 110 kg. *)
Lemma maintenance_4_2_1_at_110 :
  fst (calculate_maintenance 110) == 40 + 20 + (110 - 20) /\
  snd (calculate_maintenance 110) == fst (calculate_maintenance 110) * 24.
Proof.
  assert (P : 0 < 110) by reflexivity.
  assert (L : 20 < 110) by reflexivity.
  split.
  - exact (proj1 (proj2 (proj2 (maintenance_4_2_1 P))) L).
  - exact (proj2 (proj2 (proj2 (maintenance_4_2_1 P)))).
Defined.

(** C3. For every weight w > 0, gender and flags, the TBW estimator returns
    base_fraction * w (0.6 for Male, 0.5 otherwise), times 0.85 if obese,
    then times 1.10 if malnourished; the result is >= 0; and at 110 kg,
    Male, neither flag, it is 66.0, also in binary64. *)
Theorem estimate_tbw_contract (w : Q) (gender : string) (obese malnourished : bool) :
  0 < w ->
  estimate_tbw w gender obese malnourished == tbw_contract w gender obese malnourished /\
  0 <= estimate_tbw w gender obese malnourished /\
  estimate_tbw (F:=Q) 110 "Male" false false == 66 /\
  estimate_tbw 110%float "Male" false false = 66%float.
Proof.
  intro Hw. split; [|split; [|split]].
  - unfold estimate_tbw, tbw_contract. q_ops.
    destruct (String.eqb gender "Male"), obese, malnourished; lra.
  - apply estimate_tbw_nonneg. lra.
  - vm_compute. reflexivity.
  - vm_compute. reflexivity.
Qed.

(** The TBW contract at 80 kg, Female, obese and malnourished. *)
Lemma estimate_tbw_contract_obese_malnourished :
  estimate_tbw 80 "Female" true true == 0.5 * 80 * 0.85 * 1.10 /\
  0 <= estimate_tbw (F:=Q) 80 "Female" true true.
Proof.
  assert (P : 0 < 80) by reflexivity.
  split.
  - exact (proj1 (estimate_tbw_contract "Female" true true P)).
  - exact (proj1 (proj2 (estimate_tbw_contract "Female" true true P))).
Defined.

(** C4. With the CHF flag the plan's hourly rate is half the unrestricted
    4-2-1 rate, and without it the unrestricted rate; either way the 24h
    maintenance volume is that rate times 24, the deficit is that rate times
    the NPO hours (no floor, no cap), and the total is their sum. *)
Theorem chf_restriction (g : Globals Q) :
  exists p, generate_plan g = Ok p /\
    rate_h p == (if chf g then fst (calculate_maintenance (weight g)) / 2
                 else fst (calculate_maintenance (weight g))) /\
    maint_24 p == rate_h p * 24 /\
    deficit p == rate_h p * inject_Z (npo_hours g) /\
    total_24 p == maint_24 p + deficit p.
Proof.
  destruct (generate_plan_fields g) as (p & E & _ & Hr & Hm & Hd & Ht & _).
  exists p. split; [exact E|].
  rewrite Ht, Hd, Hm, Hr. unfold rate_of, calculate_deficit. cbn zeta.
  set (r := fst (calculate_maintenance (weight g))).
  destruct (chf g); q_ops; repeat split; try reflexivity.
  unfold Qdiv. setoid_replace (/ 2) with 0.5 by reflexivity. reflexivity.
Qed.

(** C5. The electrolyte deficit calculator returns max(0, TBW (140 - Na)),
    max(0, 0.4 weight (4.0 - K)) and max(0, 0.3 weight (24 - HCO3)), where
    weight is the global the maintenance calculation is run on; each is
    >= 0, and the sodium deficit is 0 whenever Na > 140 (TBW being >= 0, as
    the estimator makes it on a weight >= 0). *)
Theorem electrolyte_deficits (g : Globals Q) (tbw0 na k hco3 : Q) :
  (exists a b c, calculate_electrolyte_deficits g tbw0 na k hco3 = (a, b, c) /\
     a == Qmax 0 (tbw0 * (140 - na)) /\
     b == Qmax 0 (0.4 * weight g * (4.0 - k)) /\
     c == Qmax 0 (0.3 * weight g * (24 - hco3)) /\
     0 <= a /\ 0 <= b /\ 0 <= c /\
     (0 <= tbw0 -> 140 < na -> a == 0)) /\
  (exists p, generate_plan g = Ok p /\
     rate_h p == (if chf g then fst (calculate_maintenance (weight g)) * 0.5
                  else fst (calculate_maintenance (weight g))) /\
     na_def p == Qmax 0 (tbw p * (140 - serum_na g)) /\
     k_def p == Qmax 0 (0.4 * weight g * (4.0 - serum_k g)) /\
     hco3_def p == Qmax 0 (0.3 * weight g * (24 - serum_hco3 g)) /\
     0 <= na_def p /\ 0 <= k_def p /\ 0 <= hco3_def p /\
     (0 <= weight g -> 140 < serum_na g -> na_def p == 0)).
Proof.
  assert (Fn : forall t n k' h,
    exists a b c, calculate_electrolyte_deficits g t n k' h = (a, b, c) /\
      a == Qmax 0 (t * (140 - n)) /\
      b == Qmax 0 (0.4 * weight g * (4.0 - k')) /\
      c == Qmax 0 (0.3 * weight g * (24 - h)) /\
      0 <= a /\ 0 <= b /\ 0 <= c /\
      (0 <= t -> 140 < n -> a == 0)).
  { intros t n k' h. unfold calculate_electrolyte_deficits.
    do 3 eexists. split; [reflexivity|].
    rewrite !py_max_Qmax. q_ops.
    repeat split; try reflexivity; try apply Q.le_max_l.
    intros Ht Hn. apply Q.max_l. nra. }
  split; [apply Fn|].
  destruct (generate_plan_fields g) as (p & E & Htbw & Hr & _ & _ & _ & He & _).
  exists p. split; [exact E|].
  destruct (Fn (tbw p) (serum_na g) (serum_k g) (serum_hco3 g))
    as (a & b & c & Eabc & Ha & Hb & Hc & La & Lb & Lc & Z).
  rewrite Eabc in He. injection He as -> -> ->.
  split.
  { rewrite Hr. unfold rate_of. cbn zeta. destruct (chf g); q_ops; reflexivity. }
  repeat split; try assumption.
  intros Hw Hn. apply Z; [|exact Hn].
  rewrite Htbw. apply estimate_tbw_nonneg. exact Hw.
Qed.

(** The deficits at TBW 66 and Na 150: no sodium deficit. *)
Lemma electrolyte_deficits_high_sodium :
  exists a b c,
    calculate_electrolyte_deficits (F:=Q) sidebar_defaults 66 150 5 22 = (a, b, c) /\
    a == 0 /\ 0 <= b /\ 0 <= c.
Proof.
  destruct (proj1 (electrolyte_deficits sidebar_defaults 66 150 5 22))
    as (a & b & c & E & _ & _ & _ & _ & Lb & Lc & Z).
  exists a, b, c. split; [exact E|]. split; [|split; assumption].
  apply Z; [discriminate | reflexivity].
Defined.

(** C6. With the pediatric flag the selected fluid is "D5LR" if longNpo is
    set and "D5NS" otherwise, whatever the labs, the deficit and the other
    flags are, and it contains dextrose ("D5" occurs in its name); over any
    number type. *)
Theorem pediatric_fluid {F : Type} `{PyNum F} (g : Globals F) :
  pediatric g = true ->
  exists p, generate_plan g = Ok p /\
    fluid p = (if long_npo g then "D5LR" else "D5NS") /\
    str_in "D5" (fluid p) = true.
Proof.
  intro Hped.
  destruct (generate_plan_fields g) as (p & E & _ & _ & _ & _ & _ & _ & Hf & _).
  exists p. split; [exact E|].
  rewrite Hf. unfold select_fluid. rewrite Hped.
  destruct (long_npo g); split; reflexivity.
Qed.

(** The pediatric rule on a child, fasting for long and not. *)
Lemma pediatric_fluid_children :
  (exists p : Plan Q, generate_plan (child true) = Ok p /\
     fluid p = "D5LR" /\ str_in "D5" (fluid p) = true) /\
  (exists p : Plan float, generate_plan (child false) = Ok p /\
     fluid p = "D5NS" /\ str_in "D5" (fluid p) = true).
Proof.
  split.
  - exact (pediatric_fluid (child true) eq_refl).
  - exact (pediatric_fluid (child false) eq_refl).
Defined.

(** C7, on the code.  An adult with Na 135, no deficit and an insulin
    infusion gets "D5NS", not "D5LR": the base fluid is "Lactated Ringer's",
    whose name does not contain "LR".  The rest of the rule is as claimed: Na
    125 and no escalation flag gives "0.9% NaCl". *)
Theorem escalation_from_lactated_ringers :
  str_in "LR" "Lactated Ringer's" = false /\
  sidebar_accepts (F:=Q) adult_on_insulin = true /\
  (exists p : Plan Q, generate_plan adult_on_insulin = Ok p /\
     deficit p == 0 /\ fluid p = "D5NS") /\
  (exists p : Plan float, generate_plan adult_on_insulin = Ok p /\
     deficit p = 0%float /\ fluid p = "D5NS") /\
  (exists p : Plan Q, generate_plan adult_low_sodium = Ok p /\ fluid p = "0.9% NaCl").
Proof.
  split; [reflexivity|]. split; [reflexivity|].
  repeat split; eexists; (split; [vm_compute; reflexivity|]); cbn [deficit fluid];
    repeat split; vm_compute; reflexivity.
Qed.

(** C8. Potassium supplementation is recommended exactly when K < 3.5, so not
    at K = 3.5; the recommendation is a function of the potassium value alone,
    the same under either fluid branch.  In binary64: recommended at 3.0, not
    at 4.0, not at 3.5. *)
Theorem potassium_supplement :
  (forall g : Globals Q, exists p, generate_plan g = Ok p /\
     (k_supplement p = "Add KCl 20 mEq per L" <-> serum_k g < 3.5) /\
     (k_supplement p = "No extra KCl" <-> 3.5 <= serum_k g)) /\
  (forall (g g' : Globals Q) (p p' : Plan Q),
     generate_plan g = Ok p -> generate_plan g' = Ok p' ->
     serum_k g == serum_k g' -> k_supplement p = k_supplement p') /\
  (exists p : Plan float, generate_plan (with_serum_k 3.0%float sidebar_defaults) = Ok p /\
     k_supplement p = "Add KCl 20 mEq per L") /\
  (exists p : Plan float, generate_plan (with_serum_k 4.0%float sidebar_defaults) = Ok p /\
     k_supplement p = "No extra KCl") /\
  (exists p : Plan float, generate_plan (with_serum_k 3.5%float sidebar_defaults) = Ok p /\
     k_supplement p = "No extra KCl").
Proof.
  split; [|split].
  - intro g.
    destruct (generate_plan_fields g) as (p & E & _ & _ & _ & _ & _ & _ & _ & Hk & _).
    exists p. split; [exact E|]. rewrite Hk. q_ops.
    destruct (Qltb_reflect (serum_k g) 3.5) as [L|L]; repeat split; intros;
      try reflexivity; try discriminate; lra.
  - intros g g' p p' E E' K.
    destruct (generate_plan_fields g) as (q & Eq & _ & _ & _ & _ & _ & _ & _ & Hk & _).
    destruct (generate_plan_fields g') as (q' & Eq' & _ & _ & _ & _ & _ & _ & _ & Hk' & _).
    rewrite E in Eq. rewrite E' in Eq'.
    injection Eq as <-. injection Eq' as <-.
    rewrite Hk, Hk'. q_ops.
    destruct (Qltb_reflect (serum_k g) 3.5), (Qltb_reflect (serum_k g') 3.5);
      try reflexivity; lra.
  - repeat split; eexists; (split; [vm_compute; reflexivity|]); reflexivity.
Qed.

(** The potassium rule at K = 3.5 exactly. *)
Lemma potassium_supplement_at_boundary :
  exists p : Plan Q, generate_plan (with_serum_k 3.5 sidebar_defaults) = Ok p /\
    k_supplement p = "No extra KCl".
Proof.
  destruct (proj1 potassium_supplement (with_serum_k 3.5 sidebar_defaults))
    as (p & E & _ & _ & K).
  exists p. split; [exact E|]. apply K. discriminate.
Defined.

(** The order string's test ["KCl" in k_supplement] holds of both
    recommendations. *)
Remark order_suffix_always_adds_KCl {F : Type} `{PyNum F} (g : Globals F) :
  exists p, generate_plan g = Ok p /\
    str_in "; add 20 mEq KCl per L" (order_suffix p) = true.
Proof.
  destruct (generate_plan_fields g) as (p & E & _ & _ & _ & _ & _ & _ & _ & Hk & Ho).
  exists p. split; [exact E|]. rewrite Ho, Hk. unfold order_suffix_of.
  destruct (lt (serum_k g) (of_lit 3.5)), (str_in "D5" (fluid p)); reflexivity.
Qed.

(** C9, as stated, fails: at weight 0, which the weight widget accepts, the
    block raises nothing and binds a plan. *)
Lemma zero_weight_is_planned :
  invalid_input (with_weight 0 sidebar_defaults) /\
  sidebar_accepts (with_weight 0 sidebar_defaults) = true /\
  raises (generate_plan (with_weight 0 sidebar_defaults)) = false /\
  exists p : Plan Q, generate_plan (with_weight 0 sidebar_defaults) = Ok p /\
    rate_h p == 0 /\ total_24 p == 0 /\ fluid p = "Lactated Ringer's".
Proof.
  split; [left; discriminate|]. split; [reflexivity|]. split; [reflexivity|].
  eexists. split; [vm_compute; reflexivity|]. repeat split; vm_compute; reflexivity.
Qed.

(** C9, amended. The block has no validation and no InvalidInput: on every
    input the sidebar lets through (age, weight and NPO hours at or above 0,
    weight 0 included) whose NPO hours convert to a float, it raises nothing
    and binds a complete plan, whose fluid is a key of the composition table;
    over any number type. *)
Theorem generate_plan_total {F : Type} `{PyNum F} (g : Globals F) :
  sidebar_accepts g = true ->
  converts_to_float (npo_hours g) = true ->
  raises (generate_plan g) = false /\
  exists p, generate_plan g = Ok p /\
    exists comp, getitem fluid_composition (fluid p) = Ok comp /\
      intake p = maintenance_intake comp (maint_24 p).
Proof.
  intros _ _.
  destruct (generate_plan_fields g) as (p & E & _ & _ & _ & _ & _ & _ & Hf & _).
  rewrite E. split; [reflexivity|]. exists p. split; [reflexivity|].
  destruct (getitem_selected g (deficit p)) as (comp & Ec).
  exists comp. rewrite Hf. split; [exact Ec|].
  revert E. unfold generate_plan, calculate_maintenance, calculate_electrolyte_deficits.
  cbn [fst snd]. intro E.
  destruct (chf g);
    match type of E with
    | context [getitem fluid_composition (select_fluid ?g0 ?d)] =>
        destruct (getitem_selected g0 d) as [comp' Ec']; rewrite Ec' in E
    end;
    cbn [bind] in E; injection E as <-; cbn in *; congruence.
Qed.

(** The plan at weight 0 and 12 NPO hours. *)
Lemma generate_plan_total_at_zero_weight :
  raises (generate_plan (F:=Q) (with_weight 0 sidebar_defaults)) = false /\
  exists p : Plan Q, generate_plan (with_weight 0 sidebar_defaults) = Ok p /\
    exists comp, getitem fluid_composition (fluid p) = Ok comp /\
      intake p = maintenance_intake comp (maint_24 p).
Proof.
  assert (A : sidebar_accepts (F:=Q) (with_weight 0 sidebar_defaults) = true)
    by reflexivity.
  assert (C : converts_to_float (npo_hours (with_weight 0 (sidebar_defaults (F:=Q)))) = true)
    by reflexivity.
  exact (generate_plan_total (with_weight 0 sidebar_defaults) A C).
Defined.

(** C10. For a non-pediatric input with weight > 0: the maintenance rate is
    positive; with NPO hours > 0 the deficit is positive and the fluid is
    "0.9% NaCl" or "D5NS"; with NPO hours >= 0 an LR-based fluid forces NPO
    hours = 0.  And "Lactated Ringer's" is reached at NPO hours = 0. *)
Theorem adult_fluid_with_deficit :
  (forall g : Globals Q, pediatric g = false -> 0 < weight g ->
     exists p, generate_plan g = Ok p /\
       0 < rate_h p /\
       ((0 < npo_hours g)%Z ->
          0 < deficit p /\
          (fluid p = "0.9% NaCl" \/ fluid p = "D5NS") /\
          fluid p <> "Lactated Ringer's" /\ fluid p <> "D5LR") /\
       ((0 <= npo_hours g)%Z ->
          fluid p = "Lactated Ringer's" \/ fluid p = "D5LR" -> npo_hours g = 0%Z)) /\
  (exists p : Plan Q, generate_plan (with_npo_hours 0 sidebar_defaults) = Ok p /\
     fluid p = "Lactated Ringer's").
Proof.
  split.
  - intros g Hped Hw.
    destruct (generate_plan_fields g) as (p & E & _ & Hr & _ & Hd & _ & _ & Hf & _).
    exists p. split; [exact E|].
    assert (Rpos : 0 < rate_h p).
    { rewrite Hr. unfold rate_of. cbn zeta.
      pose proof (maintenance_rate_pos Hw) as R.
      destruct (chf g); q_ops; lra. }
    assert (Sal : (0 < npo_hours g)%Z ->
              0 < deficit p /\
              (fluid p = "0.9% NaCl" \/ fluid p = "D5NS") /\
              fluid p <> "Lactated Ringer's" /\ fluid p <> "D5LR").
    { intro Hn.
      assert (Dpos : 0 < deficit p).
      { rewrite Hd. unfold calculate_deficit. q_ops.
        pose proof (inject_Z_pos Hn). nra. }
      split; [exact Dpos|].
      rewrite Hf, (select_fluid_adult g (deficit p) Hped). q_ops.
      rewrite (Qltb_true Dpos), orb_true_r.
      destruct (long_npo g || insulin_infusion g || malnourished g);
        repeat split; auto; discriminate. }
    split; [exact Rpos|]. split; [exact Sal|].
    intros Hn HLR.
    destruct (Z.eq_dec (npo_hours g) 0) as [Z0|NZ]; [exact Z0|].
    destruct Sal as (_ & _ & N1 & N2); [lia|].
    destruct HLR; contradiction.
  - eexists. split; [vm_compute; reflexivity|]. reflexivity.
Qed.

(** The saline rule at the sidebar's starting values (110 kg, 12 NPO hours). *)
Lemma adult_fluid_with_deficit_at_defaults :
  exists p : Plan Q, generate_plan sidebar_defaults = Ok p /\
    0 < deficit p /\ (fluid p = "0.9% NaCl" \/ fluid p = "D5NS").
Proof.
  assert (W : 0 < weight (sidebar_defaults (F:=Q))) by reflexivity.
  destruct (proj1 adult_fluid_with_deficit sidebar_defaults eq_refl W)
    as (p & E & _ & S & _).
  exists p. split; [exact E|].
  destruct (S eq_refl) as (D & Fl & _). split; assumption.
Defined.

End Claims.

(** * Further properties of the script *)

(** ** The helper functions *)

Section Helpers.

Local Open Scope string_scope.
Local Open Scope Q_scope.

(** A heavier patient never gets a lower hourly rate or 24h volume. *)
Theorem maintenance_monotone (w1 w2 : Q) :
  w1 <= w2 ->
  fst (calculate_maintenance w1) <= fst (calculate_maintenance w2) /\
  snd (calculate_maintenance w1) <= snd (calculate_maintenance w2).
Proof.
  intro L. unfold calculate_maintenance. cbn [fst snd].
  q_ops. unfold py_min, py_max. q_ops. q_split; split; lra.
Qed.

(** From 5 kg to 25 kg. *)
Lemma maintenance_monotone_5_25 :
  fst (calculate_maintenance 5) <= fst (calculate_maintenance 25) /\
  snd (calculate_maintenance 5) <= snd (calculate_maintenance 25).
Proof.
  assert (L : 5 <= 25) by discriminate.
  exact (maintenance_monotone L).
Defined.

(** The calculator has no floor: at a weight <= 0 the three tiers give 4w,
    which is 0 at 0 and negative below, and 96w over 24 hours. *)
Theorem maintenance_without_floor (w : Q) :
  w <= 0 ->
  fst (calculate_maintenance w) == 4 * w /\
  snd (calculate_maintenance w) == 96 * w /\
  fst (calculate_maintenance w) <= 0.
Proof.
  intro L. unfold calculate_maintenance. cbn [fst snd].
  q_ops. unfold py_min, py_max. q_ops. q_split; repeat split; lra.
Qed.

(** At -5 kg the rate is -20 mL/h. *)
Lemma maintenance_without_floor_minus_5 :
  fst (calculate_maintenance (-5)) == 4 * (-5) /\
  snd (calculate_maintenance (-5)) == 96 * (-5) /\
  fst (calculate_maintenance (-5)) <= 0.
Proof.
  assert (L : -5 <= 0) by discriminate.
  exact (maintenance_without_floor L).
Defined.

(** On a weight >= 0 the rate lies between 1 and 4 mL/h per kg. *)
Theorem maintenance_rate_bounds (w : Q) :
  0 <= w ->
  w <= fst (calculate_maintenance w) /\
  fst (calculate_maintenance w) <= 4 * w.
Proof.
  intro L. unfold calculate_maintenance. cbn [fst].
  q_ops. unfold py_min, py_max. q_ops. q_split; repeat split; lra.
Qed.

(** The bounds at 15 kg. *)
Lemma maintenance_rate_bounds_15 :
  15 <= fst (calculate_maintenance 15) /\
  fst (calculate_maintenance 15) <= 4 * 15.
Proof.
  assert (L : 0 <= 15) by discriminate.
  exact (maintenance_rate_bounds L).
Defined.

(** Whatever the gender and the flags, the TBW of a weight >= 0 is at least 0
    and at most the weight. *)
Theorem estimate_tbw_range (w : Q) (gender : string) (obese malnourished : bool) :
  0 <= w ->
  0 <= estimate_tbw w gender obese malnourished /\
  estimate_tbw w gender obese malnourished <= w.
Proof.
  intro L. unfold estimate_tbw. q_ops.
  destruct (String.eqb gender "Male"), obese, malnourished; split; lra.
Qed.

(** The range at 70 kg, male, malnourished. *)
Lemma estimate_tbw_range_70 :
  0 <= estimate_tbw 70 "Male" false true /\
  estimate_tbw 70 "Male" false true <= 70.
Proof.
  assert (L : 0 <= 70) by discriminate.
  exact (estimate_tbw_range "Male" false true L).
Defined.

(** The gender test is an exact string comparison: any string other than
    "Male" gets the TBW of "Female"; over any number type. *)
Theorem estimate_tbw_other_gender {F : Type} `{PyNum F}
    (w : F) (gender : string) (obese malnourished : bool) :
  gender <> "Male" ->
  estimate_tbw w gender obese malnourished = estimate_tbw w "Female" obese malnourished.
Proof.
  intro N. apply String.eqb_neq in N.
  unfold estimate_tbw. rewrite N. reflexivity.
Qed.

(** The lower-case "male" is not "Male", in binary64. *)
Lemma estimate_tbw_other_gender_lowercase :
  estimate_tbw 70%float "male" false false = estimate_tbw 70%float "Female" false false.
Proof.
  assert (N : "male" <> "Male") by discriminate.
  exact (estimate_tbw_other_gender 70%float false false N).
Defined.

End Helpers.

(** ** The calculation block *)

Section BlockFacts.

Context {F : Type} `{PyNum F}.
Local Open Scope string_scope.

Lemma generate_plan_intake (g : Globals F) (p : Plan F) :
  generate_plan g = Ok p ->
  exists comp, getitem fluid_composition (fluid p) = Ok comp /\
    intake p = maintenance_intake comp (maint_24 p).
Proof.
  unfold generate_plan, calculate_maintenance, calculate_electrolyte_deficits.
  cbn [fst snd]. intro E.
  destruct (chf g);
    match type of E with
    | context [getitem fluid_composition (select_fluid ?g0 ?d)] =>
        destruct (getitem_selected g0 d) as [comp Ec]; rewrite Ec in E
    end;
    cbn [bind] in E; injection E as <-; cbn [fluid intake maint_24];
    exists comp; (split; [exact Ec | reflexivity]).
Qed.

Lemma select_fluid_dextrose (g : Globals F) (d : F) :
  str_in "D5" (select_fluid g d) =
    pediatric g || long_npo g || insulin_infusion g || malnourished g.
Proof.
  unfold select_fluid.
  destruct (pediatric g); [destruct (long_npo g); reflexivity|].
  destruct (lt (serum_na g) (of_int 130) || lt (of_int 0) d);
    destruct (long_npo g), (insulin_infusion g), (malnourished g); reflexivity.
Qed.

End BlockFacts.

Section BlockFactsQ.

Local Open Scope string_scope.
Local Open Scope Q_scope.

Lemma sidebar_accepts_inv (g : Globals Q) :
  sidebar_accepts g = true ->
  (0 <= age g)%Z /\ 0 <= weight g /\ (0 <= npo_hours g)%Z /\
  (gender g = "Male" \/ gender g = "Female").
Proof.
  unfold sidebar_accepts. intro A.
  apply andb_prop in A as [A G]. apply andb_prop in A as [A N].
  apply andb_prop in A as [A W].
  apply Z.leb_le in A, N. q_ops.
  destruct (Qltb_reflect (weight g) 0) as [L|L]; [discriminate|].
  repeat split; try assumption; [lra|].
  apply orb_prop in G as [G|G]; apply String.eqb_eq in G; auto.
Qed.

Lemma inject_Z_nonneg (n : Z) : (0 <= n)%Z -> 0 <= inject_Z n.
Proof. intro L. change 0 with (inject_Z 0). rewrite <- Zle_Qle. exact L. Qed.

Lemma rate_of_nonneg (g : Globals Q) : 0 <= weight g -> 0 <= rate_of g.
Proof.
  intro L. unfold rate_of, calculate_maintenance. cbn [fst].
  destruct (chf g); q_ops; unfold py_min, py_max; q_ops; q_split; lra.
Qed.

Lemma rate_of_pos (g : Globals Q) : 0 < weight g -> 0 < rate_of g.
Proof.
  intro L. unfold rate_of. cbn zeta. pose proof (maintenance_rate_pos L).
  destruct (chf g); q_ops; lra.
Qed.

Lemma rate_of_zero (g : Globals Q) : weight g == 0 -> rate_of g == 0.
Proof.
  intro L. unfold rate_of, calculate_maintenance. cbn [fst].
  destruct (chf g); q_ops; unfold py_min, py_max; q_ops; q_split; lra.
Qed.

Lemma estimate_tbw_pos (w : Q) (gender : string) (obese malnourished : bool) :
  0 < w -> 0 < estimate_tbw w gender obese malnourished.
Proof.
  intro L. unfold estimate_tbw. q_ops.
  destruct (String.eqb gender "Male"), obese, malnourished; lra.
Qed.

(** With no NPO hours there is no deficit, and the total is the maintenance
    volume. *)
Theorem no_deficit_without_npo (g : Globals Q) :
  npo_hours g = 0%Z ->
  exists p, generate_plan g = Ok p /\
    deficit p == 0 /\ total_24 p == maint_24 p.
Proof.
  intro N.
  destruct (generate_plan_fields g) as (p & E & _ & _ & _ & Hd & Ht & _).
  exists p. split; [exact E|].
  assert (D : deficit p == 0).
  { rewrite Hd, N. unfold calculate_deficit. q_ops. lra. }
  split; [exact D|]. rewrite Ht. q_ops. rewrite D. lra.
Qed.

(** At the sidebar's starting values with the NPO hours set to 0. *)
Lemma no_deficit_without_npo_at_defaults :
  exists p : Plan Q, generate_plan (with_npo_hours 0 sidebar_defaults) = Ok p /\
    deficit p == 0 /\ total_24 p == maint_24 p.
Proof.
  exact (no_deficit_without_npo (with_npo_hours 0 sidebar_defaults) eq_refl).
Defined.

(** Ticking the CHF box halves the hourly rate and changes nothing but the
    volumes: same TBW, same electrolyte deficits, same fluid (the deficit
    keeps its sign), same potassium recommendation. *)
Theorem chf_changes_volumes_only (g : Globals Q) :
  chf g = false ->
  exists p p', generate_plan g = Ok p /\ generate_plan (with_chf true g) = Ok p' /\
    rate_h p' == rate_h p / 2 /\
    (0 < deficit p' <-> 0 < deficit p) /\
    tbw p' = tbw p /\ na_def p' = na_def p /\ k_def p' = k_def p /\
    hco3_def p' = hco3_def p /\ fluid p' = fluid p /\ k_supplement p' = k_supplement p.
Proof.
  intro C.
  destruct (generate_plan_fields g)
    as (p & E & Htbw & Hr & Hm & Hd & Ht & He & Hf & Hk & _).
  destruct (generate_plan_fields (with_chf true g))
    as (p' & E' & Htbw' & Hr' & Hm' & Hd' & Ht' & He' & Hf' & Hk' & _).
  exists p, p'. split; [exact E|]. split; [exact E'|].
  cbn [with_chf weight gender obese malnourished npo_hours serum_na serum_k serum_hco3]
    in Htbw', Hd', He', Hk'.
  assert (T : tbw p' = tbw p) by congruence.
  unfold rate_of in Hr, Hr'. cbn [with_chf weight chf] in Hr'. rewrite C in Hr.
  cbn zeta in Hr, Hr'.
  set (r := fst (calculate_maintenance (weight g))) in *.
  assert (R : rate_h p' == rate_h p / 2).
  { rewrite Hr, Hr'. q_ops. unfold Qdiv. setoid_replace (/ 2) with 0.5 by reflexivity.
    reflexivity. }
  assert (D : deficit p' == deficit p / 2).
  { rewrite Hd, Hd'. unfold calculate_deficit. q_ops. rewrite R. field. }
  assert (D2 : deficit p == 2 * deficit p') by (rewrite D; field).
  split; [exact R|]. split; [split; intro; lra|].
  split; [exact T|].
  unfold calculate_electrolyte_deficits in He, He'. cbn [with_chf weight] in He'.
  rewrite T in He'. rewrite <- He in He'. injection He' as -> -> ->.
  repeat split; try reflexivity; [|congruence].
  rewrite Hf, Hf'. unfold select_fluid.
  cbn [with_chf pediatric long_npo serum_na insulin_infusion malnourished].
  q_ops.
  replace (Qltb 0 (deficit p')) with (Qltb 0 (deficit p)); [reflexivity|].
  destruct (Qltb_reflect 0 (deficit p)), (Qltb_reflect 0 (deficit p'));
    try reflexivity; exfalso; lra.
Qed.

(** At the sidebar's starting values. *)
Lemma chf_changes_volumes_only_at_defaults :
  exists p p' : Plan Q,
    generate_plan sidebar_defaults = Ok p /\
    generate_plan (with_chf true sidebar_defaults) = Ok p' /\
    rate_h p' == rate_h p / 2 /\ fluid p' = fluid p.
Proof.
  destruct (chf_changes_volumes_only sidebar_defaults eq_refl)
    as (p & p' & E & E' & R & _ & _ & _ & _ & _ & Fl & _).
  exists p, p'. repeat split; assumption.
Defined.

End BlockFactsQ.

(** ** The fluid rule *)

Section FluidRule.

Context {F : Type} `{PyNum F}.
Local Open Scope string_scope.

(** The selected fluid contains dextrose ("D5" occurs in its name) exactly
    when one of pediatric, prolonged NPO, insulin infusion and malnourished
    is set; labs and deficit have no say. *)
Theorem dextrose_rule (g : Globals F) :
  exists p, generate_plan g = Ok p /\
    str_in "D5" (fluid p) =
      pediatric g || long_npo g || insulin_infusion g || malnourished g.
Proof.
  destruct (generate_plan_fields g) as (p & E & _ & _ & _ & _ & _ & _ & Hf & _).
  exists p. split; [exact E|]. rewrite Hf. apply select_fluid_dextrose.
Qed.

(** "D5LR" is selected exactly for a pediatric patient on prolonged NPO: the
    adult branch never yields it. *)
Theorem D5LR_only_for_children (g : Globals F) :
  exists p, generate_plan g = Ok p /\
    (fluid p = "D5LR" <-> pediatric g = true /\ long_npo g = true).
Proof.
  destruct (generate_plan_fields g) as (p & E & _ & _ & _ & _ & _ & _ & Hf & _).
  exists p. split; [exact E|]. rewrite Hf.
  destruct (pediatric g) eqn:P.
  - unfold select_fluid. rewrite P. destruct (long_npo g); split.
    + auto.
    + reflexivity.
    + discriminate.
    + intros [_ N]. discriminate.
  - rewrite (select_fluid_adult g (deficit p) P). split.
    + destruct (long_npo g || insulin_infusion g || malnourished g);
        [|destruct (lt (serum_na g) (of_int 130) || lt (of_int 0) (deficit p))];
        discriminate.
    + intros [N _]. discriminate.
Qed.

End FluidRule.

Section FluidRuleQ.

Local Open Scope string_scope.
Local Open Scope Q_scope.

(** An adult on an insulin infusion does not get "D5LR". *)
Lemma D5LR_only_for_children_adult :
  exists p : Plan Q, generate_plan adult_on_insulin = Ok p /\ fluid p <> "D5LR".
Proof.
  destruct (D5LR_only_for_children (F:=Q) adult_on_insulin) as (p & E & I).
  exists p. split; [exact E|]. intro D. apply I in D. destruct D as [P _].
  discriminate P.
Defined.

Lemma deficit_pos_iff (g : Globals Q) :
  0 <= weight g -> (0 <= npo_hours g)%Z ->
  (0 < calculate_deficit (rate_of g) (inject_Z (npo_hours g)) <->
   0 < weight g /\ (0 < npo_hours g)%Z).
Proof.
  intros W N. unfold calculate_deficit. q_ops.
  pose proof (inject_Z_nonneg N) as N'.
  pose proof (rate_of_nonneg g W) as R.
  split.
  - intro D. split.
    + destruct (Qlt_le_dec 0 (weight g)) as [L|L]; [exact L|].
      assert (Z0 : weight g == 0) by lra.
      pose proof (rate_of_zero g Z0) as R0. rewrite R0 in D. lra.
    + destruct (Z.eq_dec (npo_hours g) 0) as [Z0|NZ]; [|lia].
      rewrite Z0 in D. q_ops. lra.
  - intros [L M]. pose proof (rate_of_pos g L). pose proof (inject_Z_pos M). nra.
Qed.

(** On what the sidebar lets through, "Lactated Ringer's" is selected exactly
    for an adult with no dextrose flag, Na >= 130 and no fluid deficit, that
    is, NPO hours 0 or weight 0. *)
Theorem lactated_ringers_rule (g : Globals Q) :
  sidebar_accepts g = true ->
  exists p, generate_plan g = Ok p /\
    (fluid p = "Lactated Ringer's" <->
     pediatric g = false /\ long_npo g = false /\ insulin_infusion g = false /\
     malnourished g = false /\ 130 <= serum_na g /\
     (npo_hours g = 0%Z \/ weight g == 0)).
Proof.
  intro A. apply sidebar_accepts_inv in A as (_ & W & N & _).
  destruct (generate_plan_fields g) as (p & E & _ & Hr & _ & Hd & _ & _ & Hf & _).
  exists p. split; [exact E|]. rewrite Hf.
  pose proof (deficit_pos_iff g W N) as DP.
  cbn [of_int PyNum_Q] in Hd. rewrite <- Hr, <- Hd in DP.
  destruct (pediatric g) eqn:P.
  { unfold select_fluid. rewrite P. split.
    - destruct (long_npo g); discriminate.
    - intros [X _]. discriminate. }
  rewrite (select_fluid_adult g (deficit p) P). q_ops.
  destruct (long_npo g), (insulin_infusion g), (malnourished g); cbn [orb];
    try (split; [discriminate | intros (_ & A1 & A2 & A3 & _); discriminate]).
  destruct (Qltb_reflect (serum_na g) 130) as [Na|Na]; cbn [orb].
  { split; [discriminate | intros (_ & _ & _ & _ & X & _); lra]. }
  destruct (Qltb_reflect 0 (deficit p)) as [D|D].
  - split; [discriminate|]. intros (_ & _ & _ & _ & _ & [Z0|Z0]).
    + apply DP in D. lia.
    + apply DP in D. lra.
  - split; [|reflexivity]. intros _. repeat split; try reflexivity; [lra|].
    destruct (Z.eq_dec (npo_hours g) 0) as [Z0|NZ]; [left; exact Z0|right].
    destruct (Qlt_le_dec 0 (weight g)) as [L|L]; [|lra].
    exfalso. apply D. apply DP. split; [exact L | lia].
Qed.

(** At the sidebar's starting values with the NPO hours set to 0. *)
Lemma lactated_ringers_rule_not_fasting :
  exists p : Plan Q, generate_plan (with_npo_hours 0 sidebar_defaults) = Ok p /\
    fluid p = "Lactated Ringer's".
Proof.
  assert (A : sidebar_accepts (F:=Q) (with_npo_hours 0 sidebar_defaults) = true)
    by reflexivity.
  destruct (lactated_ringers_rule (with_npo_hours 0 sidebar_defaults) A)
    as (p & E & I).
  exists p. split; [exact E|]. apply I.
  repeat split; try reflexivity; [discriminate | left; reflexivity].
Defined.

End FluidRuleQ.

(** ** The composition table and the intake projection *)

Section Table.

Local Open Scope string_scope.

Lemma getitem_spec {V : Type} (d : dict V) (key : string) :
  match getitem d key with
  | Ok v => In (key, v) d
  | Raise e => e = KeyError key /\ ~ In key (keys d)
  end.
Proof.
  induction d as [|[k v] d IH]; cbn [getitem keys map fst].
  - split; [reflexivity | intros []].
  - destruct (String.eqb_spec k key) as [->|N].
    + left. reflexivity.
    + destruct (getitem d key) as [v'|e].
      * right. exact IH.
      * destruct IH as [-> NI]. split; [reflexivity|].
        intros [K|K]; [exact (N K) | exact (NI K)].
Qed.

Lemma getitem_In {V : Type} (d : dict V) (key : string) (v : V) :
  getitem d key = Ok v -> In (key, v) d.
Proof. intro E. pose proof (getitem_spec d key) as S. rewrite E in S. exact S. Qed.

(** Every composition of the table has distinct keys, all of them keys the
    intake loop lets through, positive concentrations, sodium and chloride,
    and glucose exactly when its name contains "D5". *)
Theorem composition_invariants (name : string) (comp : dict Z) :
  getitem fluid_composition name = Ok comp ->
  NoDup (keys comp) /\
  Forall (fun kv => list_in (fst kv) intake_keys = true /\ (0 < snd kv)%Z) comp /\
  list_in "Na" (keys comp) = true /\ list_in "Cl" (keys comp) = true /\
  list_in "Glucose_g" (keys comp) = str_in "D5" name.
Proof.
  intro E. apply getitem_In in E. cbn in E.
  destruct E as [E|[E|[E|[E|[]]]]]; injection E as <- <-.
  all: split; [repeat constructor; cbn; intuition discriminate|].
  all: split; [repeat constructor|].
  all: repeat split; reflexivity.
Qed.

(** The invariants of "D5NS". *)
Lemma composition_invariants_D5NS :
  exists comp, getitem fluid_composition "D5NS" = Ok comp /\
    NoDup (keys comp) /\ list_in "Glucose_g" (keys comp) = true.
Proof.
  eexists. split; [reflexivity|].
  split.
  - exact (proj1 (composition_invariants "D5NS" eq_refl)).
  - exact (proj2 (proj2 (proj2 (proj2 (composition_invariants "D5NS" eq_refl))))).
Defined.

Lemma composition_concentrations_pos (name : string) (comp : dict Z) :
  getitem fluid_composition name = Ok comp ->
  Forall (fun kv => (0 < snd kv)%Z) comp.
Proof.
  intro E. apply getitem_In in E. cbn in E.
  destruct E as [E|[E|[E|[E|[]]]]]; injection E as <- <-; repeat constructor.
Qed.

Lemma composition_unfiltered (name : string) (comp : dict Z) :
  getitem fluid_composition name = Ok comp ->
  filter (fun kv => list_in (fst kv) intake_keys) comp = comp.
Proof.
  intro E. apply getitem_In in E. cbn in E.
  destruct E as [E|[E|[E|[E|[]]]]]; injection E as <- <-; reflexivity.
Qed.

End Table.

Section Intake.

Context {F : Type} `{PyNum F}.
Local Open Scope string_scope.

(** The intake loop drops nothing: the plan's intake has the keys of the
    selected fluid's composition, in the same order, each with its
    concentration times maint_24 / 1000. *)
Theorem intake_projection (g : Globals F) :
  exists p comp, generate_plan g = Ok p /\
    getitem fluid_composition (fluid p) = Ok comp /\
    keys (intake p) = keys comp /\
    intake p = map (fun kv => (fst kv, mul (of_int (snd kv)) (div (maint_24 p) (of_int 1000))))
                   comp.
Proof.
  destruct (generate_plan_fields g) as (p & E & _).
  destruct (generate_plan_intake g E) as (comp & Ec & Hi).
  exists p, comp. split; [exact E|]. split; [exact Ec|].
  rewrite Hi. unfold maintenance_intake.
  change (filter _ comp) with (filter (fun kv => list_in (fst kv) intake_keys) comp).
  rewrite (composition_unfiltered _ Ec).
  split; [|reflexivity].
  unfold keys. rewrite map_map. reflexivity.
Qed.

(** The intake always lists sodium and chloride, lists glucose exactly when
    one of pediatric, prolonged NPO, insulin infusion and malnourished is set,
    and lists potassium and bicarbonate precursor together. *)
Theorem intake_components (g : Globals F) :
  exists p, generate_plan g = Ok p /\
    list_in "Na" (keys (intake p)) = true /\
    list_in "Cl" (keys (intake p)) = true /\
    list_in "Glucose_g" (keys (intake p)) =
      pediatric g || long_npo g || insulin_infusion g || malnourished g /\
    list_in "K" (keys (intake p)) = list_in "HCO3_pre" (keys (intake p)).
Proof.
  destruct (generate_plan_fields g) as (p & E & _ & _ & _ & _ & _ & _ & Hf & _).
  destruct (generate_plan_intake g E) as (comp & Ec & Hi).
  exists p. split; [exact E|].
  pose proof (select_fluid_dextrose g (deficit p)) as D. rewrite <- Hf in D.
  rewrite <- D. rewrite Hi.
  destruct (select_fluid_cases g (deficit p)) as [C|[C|[C|C]]];
    rewrite <- Hf in C; rewrite C in Ec |- *;
    cbn in Ec; injection Ec as <-; repeat split; reflexivity.
Qed.

(** The order names the fluid and the rate, notes the dextrose exactly when
    one of the four dextrose flags is set, and ends with the KCl clause for
    every input: "KCl" occurs in both values of [k_supplement]. *)
Theorem order_text_shape (format_0f : F -> string) (g : Globals F) :
  exists p, generate_plan g = Ok p /\
    order_text format_0f (fluid p) (rate_h p) (k_supplement p) =
      (let head := fluid p ++ " infusion at " ++ format_0f (rate_h p) ++
                   " mL/hr for 24h via pump" in
       if pediatric g || long_npo g || insulin_infusion g || malnourished g
       then head ++ " (contains dextrose)" else head)
      ++ "; add 20 mEq KCl per L".
Proof.
  destruct (generate_plan_fields g) as (p & E & _ & _ & _ & _ & _ & _ & Hf & Hk & _).
  exists p. split; [exact E|].
  pose proof (select_fluid_dextrose g (deficit p)) as D. rewrite <- Hf in D.
  unfold order_text. rewrite D, Hk. cbn zeta.
  destruct (lt (serum_k g) (of_lit 3.5)); reflexivity.
Qed.

End Intake.

(** ** Signs *)

Section Signs.

Local Open Scope string_scope.
Local Open Scope Q_scope.

(** For a weight of at least 1 kg each electrolyte deficit is positive exactly
    when its lab value is below the target (140, 4.0, 24); so a potassium
    between 3.5 and 4.0 has a deficit but no supplement, and a recommended
    supplement always comes with a deficit. *)
Theorem deficit_positive_iff_below_target (g : Globals Q) :
  1 <= weight g ->
  exists p, generate_plan g = Ok p /\
    (0 < na_def p <-> serum_na g < 140) /\
    (0 < k_def p <-> serum_k g < 4) /\
    (0 < hco3_def p <-> serum_hco3 g < 24) /\
    (k_supplement p = "Add KCl 20 mEq per L" -> 0 < k_def p) /\
    (3.5 <= serum_k g -> serum_k g < 4 ->
       k_supplement p = "No extra KCl" /\ 0 < k_def p).
Proof.
  intro W1. assert (W : 0 < weight g) by lra.
  destruct (generate_plan_fields g) as (p & E & Htbw & _ & _ & _ & _ & He & _ & Hk & _).
  exists p. split; [exact E|].
  pose proof (estimate_tbw_pos (gender g) (obese g) (malnourished g) W) as T.
  rewrite <- Htbw in T.
  unfold calculate_electrolyte_deficits in He. injection He as Hna Hkd Hh.
  assert (Kd : 0 < k_def p <-> serum_k g < 4).
  { rewrite Hkd. unfold py_max. q_ops. q_split; split; intros; nra. }
  split; [rewrite Hna; unfold py_max; q_ops; q_split; split; intros; nra|].
  split; [exact Kd|].
  split; [rewrite Hh; unfold py_max; q_ops; q_split; split; intros; nra|].
  rewrite Hk. q_ops.
  destruct (Qltb_reflect (serum_k g) 3.5) as [L|L]; split.
  - intros _. apply Kd. lra.
  - intros. lra.
  - discriminate.
  - intros _ K4. split; [reflexivity | apply Kd; exact K4].
Qed.

(** At the sidebar's starting values with the potassium set to 3.7. *)
Lemma deficit_positive_iff_below_target_K_3_7 :
  exists p : Plan Q, generate_plan (with_serum_k 3.7 sidebar_defaults) = Ok p /\
    k_supplement p = "No extra KCl" /\ 0 < k_def p.
Proof.
  assert (W : 1 <= weight (with_serum_k 3.7 (sidebar_defaults (F:=Q)))) by discriminate.
  destruct (deficit_positive_iff_below_target (with_serum_k 3.7 sidebar_defaults) W)
    as (p & E & _ & _ & _ & _ & K).
  exists p. split; [exact E|]. apply K; [discriminate | reflexivity].
Defined.

(** On what the sidebar lets through, nothing in the plan is negative: TBW,
    rate, volumes, deficits and every intake amount are >= 0, and the total is
    at least the maintenance volume. *)
Theorem plan_nonnegative (g : Globals Q) :
  sidebar_accepts g = true ->
  exists p, generate_plan g = Ok p /\
    0 <= tbw p /\ 0 <= rate_h p /\ 0 <= maint_24 p /\ 0 <= deficit p /\
    maint_24 p <= total_24 p /\
    0 <= na_def p /\ 0 <= k_def p /\ 0 <= hco3_def p /\
    Forall (fun kv => 0 <= snd kv) (intake p).
Proof.
  intro A. apply sidebar_accepts_inv in A as (_ & W & N & _).
  destruct (generate_plan_fields g) as (p & E & Htbw & Hr & Hm & Hd & Ht & He & Hf & _).
  destruct (generate_plan_intake g E) as (comp & Ec & Hi).
  exists p. split; [exact E|].
  pose proof (estimate_tbw_nonneg (gender g) (obese g) (malnourished g) W) as T.
  rewrite <- Htbw in T.
  pose proof (rate_of_nonneg g W) as R. rewrite <- Hr in R.
  pose proof (inject_Z_nonneg N) as N'.
  assert (M : 0 <= maint_24 p) by (rewrite Hm; q_ops; lra).
  assert (D : 0 <= deficit p) by (rewrite Hd; unfold calculate_deficit; q_ops; nra).
  unfold calculate_electrolyte_deficits in He. injection He as Hna Hkd Hh.
  split; [exact T|]. split; [exact R|]. split; [exact M|]. split; [exact D|].
  split; [rewrite Ht; q_ops; lra|].
  split; [rewrite Hna; unfold py_max; q_ops; q_split; lra|].
  split; [rewrite Hkd; unfold py_max; q_ops; q_split; lra|].
  split; [rewrite Hh; unfold py_max; q_ops; q_split; lra|].
  rewrite Hi. unfold maintenance_intake.
  apply Forall_forall. intros [k v] I. apply in_map_iff in I as ([k' c] & Ekv & I).
  apply filter_In in I as [I _].
  pose proof (composition_concentrations_pos _ Ec) as Pos.
  rewrite Forall_forall in Pos. pose proof (Pos _ I) as C. cbn [snd fst] in *.
  injection Ekv as _ <-. q_ops.
  pose proof (inject_Z_pos C) as C'.
  assert (0 <= maint_24 p / 1000) by (unfold Qdiv; setoid_replace (/ 1000) with 0.001 by reflexivity; lra).
  nra.
Qed.

(** At the sidebar's starting values. *)
Lemma plan_nonnegative_at_defaults :
  exists p : Plan Q, generate_plan sidebar_defaults = Ok p /\
    maint_24 p <= total_24 p /\ Forall (fun kv => 0 <= snd kv) (intake p).
Proof.
  assert (A : sidebar_accepts (F:=Q) sidebar_defaults = true) by reflexivity.
  destruct (plan_nonnegative sidebar_defaults A)
    as (p & E & _ & _ & _ & _ & T & _ & _ & _ & I).
  exists p. repeat split; assumption.
Defined.

End Signs.
